(** * SmartInsiderIntentionUniverseAlgorithm

    A shallow embedding of
    [SmartInsiderIntentionUniverseSelectionAlgorithm.py]: the three methods
    of the algorithm class ([Initialize], [UniverseSelection],
    [OnSecuritiesChanged]) as functions in a state-and-exception monad over
    the algorithm object, and the properties of the selection filter and of
    the start-up check.

    Python values are modelled as far as the script looks at them: a field
    of a universe datum is [None], an [int] or a [float] (an IEEE 754
    binary64 value, as [spec_float]); truth testing, [>] and [raise] follow
    Python 3. *)

From Stdlib Require Import ZArith List String Ascii Bool Lia.
From Stdlib Require Import DecimalString DecimalNat Permutation.
From Stdlib Require Import SpecFloat PrimFloat FloatOps.
Import ListNotations.

Local Open Scope string_scope.
Local Open Scope Z_scope.

(** ** Python values and exceptions *)

Inductive PyVal : Type :=
| PyNone
| PyInt (z : Z)
| PyFloat (f : spec_float).

Inductive PyExn : Type :=
| TypeError (msg : string)
| ValueError (msg : string).

Inductive Result (A : Type) : Type :=
| Ok (a : A)
| Raise (e : PyExn).

Arguments Ok {A} a.
Arguments Raise {A} e.

Definition is_ok {A : Type} (r : Result A) : bool :=
  match r with
  | Ok _ => true
  | Raise _ => false
  end.

(** [bool(v)]: [None], [0], [0.0] and [-0.0] are false, every other number
    (a NaN too) is true. *)
Definition truthy (v : PyVal) : bool :=
  match v with
  | PyNone => false
  | PyInt z => negb (z =? 0)
  | PyFloat (S754_zero _) => false
  | PyFloat _ => true
  end.

Definition type_name (v : PyVal) : string :=
  match v with
  | PyNone => "NoneType"
  | PyInt _ => "int"
  | PyFloat _ => "float"
  end.

(** Python orders an [int] and a [float] by their exact values: the float
    [(-1)^s * m * 2^e] against the integer [z], with no rounding of [z]. *)
Definition float_compare_int (f : spec_float) (z : Z) : option comparison :=
  match f with
  | S754_nan => None
  | S754_zero _ => Some (0 ?= z)
  | S754_infinity s => Some (if s then Lt else Gt)
  | S754_finite s m e =>
      let sm := if s then Z.neg m else Z.pos m in
      Some (if 0 <=? e then sm * 2 ^ e ?= z else sm ?= z * 2 ^ (- e))
  end.

(** The order of two numbers; [None] when one of them is a NaN, and on
    [PyNone], which is not a number. *)
Definition num_compare (a b : PyVal) : option comparison :=
  match a, b with
  | PyInt x, PyInt y => Some (x ?= y)
  | PyFloat x, PyFloat y => SFcompare x y
  | PyFloat x, PyInt y => float_compare_int x y
  | PyInt x, PyFloat y => option_map CompOpp (float_compare_int y x)
  | _, _ => None
  end.

(** [a] is a number and is strictly greater than the number [b]. *)
Definition num_gt (a b : PyVal) : bool :=
  match num_compare a b with
  | Some Gt => true
  | _ => false
  end.

(** [a > b]: a [TypeError] when an operand is [None], the order of the two
    numbers otherwise (false when one is a NaN). *)
Definition py_gt (a b : PyVal) : Result bool :=
  match a, b with
  | PyNone, _ | _, PyNone =>
      Raise (TypeError ("'>' not supported between instances of '"
                          ++ type_name a ++ "' and '" ++ type_name b ++ "'"))
  | _, _ => Ok (num_gt a b)
  end.

(** ** The two literals of the selection criteria *)

(** The literal [0.005] is the binary64 value nearest to 5/1000, which is
    [5764607523034235 * 2^-60] (printed [0.005000000000000000104...]). *)
Definition lit_0_005 : spec_float := S754_finite false 5764607523034235 (-60).

Definition Percentage_threshold : PyVal := PyFloat lit_0_005.

(** The literal [100000000] is an [int]. *)
Definition USDMarketCap_threshold : PyVal := PyInt 100000000.

(** The float [100000000.0], which [100000000] equals in Python. *)
Definition float_1e8 : spec_float := S754_finite false 6710886400000000 (-26).

(** ** The data the engine hands to the script *)

(** A security identifier (a [Symbol] object of the engine), by its ticker. *)
Definition SecurityId : Type := string.

Record Datum : Type := mkDatum {
  Symbol : SecurityId;
  Amount : PyVal;
  AmountValue : PyVal;
  Percentage : PyVal;
  MinimumPrice : PyVal;
  MaximumPrice : PyVal;
  USDMarketCap : PyVal
}.

Record SecurityChanges : Type := mkChanges {
  AddedSecurities : list SecurityId;
  RemovedSecurities : list SecurityId
}.

Inductive Resolution : Type :=
| Tick | Second | Minute | Hour | Daily.

Record Date : Type := mkDate { year : Z; month : Z; day : Z }.

Record TimeSpan : Type :=
  mkTimeSpan { days : Z; hours : Z; minutes : Z; seconds : Z }.

(** The universe data types of the data source, passed as classes. *)
Inductive UniverseType : Type :=
| SmartInsiderIntentionUniverse
| SmartInsiderTransactionUniverse.

(** The methods of the algorithm class; [AddUniverse] is given a bound
    method, which is kept by name. *)
Inductive Method : Type :=
| Method_Initialize
| Method_UniverseSelection
| Method_OnSecuritiesChanged.

Record Universe : Type := mkUniverse {
  universe_type : UniverseType;
  universe_selector : Method
}.

(** The part of the algorithm object ([self]) the script touches. [Logged]
    holds the messages passed to [self.Log], oldest first. *)
Record QCAlgorithm : Type := mkAlgorithm {
  UniverseSettings_Resolution : Resolution;
  StartDate : Date;
  EndDate : Date;
  Cash : Z;
  Universes : list Universe;
  Logged : list string
}.

(** What the script takes from the engine and the Python runtime without
    defining it: the text of a float, the text of a changes record, and the
    answer to a history request, which may depend on everything configured
    so far. *)
Record Host : Type := mkHost {
  float_str : spec_float -> string;
  changes_ToString : SecurityChanges -> string;
  history_source : QCAlgorithm -> Universe -> TimeSpan -> list (list Datum)
}.

(** ** State and exceptions *)

(** A method body: it runs on the algorithm object, and returns a value or
    raises; what it did to the object before raising stays done. *)
Definition M (A : Type) : Type := QCAlgorithm -> Result A * QCAlgorithm.

Definition ret {A : Type} (a : A) : M A := fun self => (Ok a, self).

Definition raise {A : Type} (e : PyExn) : M A := fun self => (Raise e, self).

Definition bind {A B : Type} (m : M A) (k : A -> M B) : M B :=
  fun self =>
    match m self with
    | (Ok a, self') => k a self'
    | (Raise e, self') => (Raise e, self')
    end.

Definition lift {A : Type} (r : Result A) : M A := fun self => (r, self).

Declare Scope py_scope.
Delimit Scope py_scope with py.
Notation "x <- m ;; k" := (bind m (fun x => k))
  (at level 61, m at next level, right associativity) : py_scope.
Notation "m ;; k" := (bind m (fun _ => k))
  (at level 61, right associativity) : py_scope.

(** [for x in xs: body(x)] *)
Fixpoint for_each {A : Type} (xs : list A) (body : A -> M unit) : M unit :=
  match xs with
  | [] => ret tt
  | x :: rest => bind (body x) (fun _ => for_each rest body)
  end.

(** Evaluation of expressions, which only return or raise. *)
Definition rbind {A B : Type} (r : Result A) (k : A -> Result B) : Result B :=
  match r with
  | Ok a => k a
  | Raise e => Raise e
  end.

(** [a and b] where only the truth of the result is used: [b] is evaluated
    only when [a] is true. *)
Definition and_then (a b : Result bool) : Result bool :=
  rbind a (fun x => if x then b else Ok false).

Infix "&&&" := and_then (at level 40, left associativity).

(** The text of [len(xs)] in an f-string. *)
Definition str_of_len {A : Type} (xs : list A) : string :=
  NilEmpty.string_of_uint (Nat.to_uint (List.length xs)).

(** ** The engine's setters *)

Definition set_UniverseSettings_Resolution (r : Resolution) : M unit :=
  fun self =>
    (Ok tt, mkAlgorithm r (StartDate self) (EndDate self) (Cash self)
                        (Universes self) (Logged self)).

Definition SetStartDate (y m d : Z) : M unit :=
  fun self =>
    (Ok tt, mkAlgorithm (UniverseSettings_Resolution self) (mkDate y m d)
                        (EndDate self) (Cash self) (Universes self)
                        (Logged self)).

Definition SetEndDate (y m d : Z) : M unit :=
  fun self =>
    (Ok tt, mkAlgorithm (UniverseSettings_Resolution self) (StartDate self)
                        (mkDate y m d) (Cash self) (Universes self)
                        (Logged self)).

Definition SetCash (c : Z) : M unit :=
  fun self =>
    (Ok tt, mkAlgorithm (UniverseSettings_Resolution self) (StartDate self)
                        (EndDate self) c (Universes self) (Logged self)).

Definition AddUniverse (t : UniverseType) (selector : Method) : M Universe :=
  fun self =>
    let u := mkUniverse t selector in
    (Ok u, mkAlgorithm (UniverseSettings_Resolution self) (StartDate self)
                       (EndDate self) (Cash self) (Universes self ++ [u])
                       (Logged self)).

Definition Log (msg : string) : M unit :=
  fun self =>
    (Ok tt, mkAlgorithm (UniverseSettings_Resolution self) (StartDate self)
                        (EndDate self) (Cash self) (Universes self)
                        (Logged self ++ [msg])).

(** ** The selection criteria *)

(** [d.Percentage and d.Percentage > 0.005
     and d.USDMarketCap and d.USDMarketCap > 100000000],
    with the meaning of [>] left open. *)
Definition criteria_with (gt : PyVal -> PyVal -> Result bool) (d : Datum)
  : Result bool :=
  Ok (truthy (Percentage d))
  &&& gt (Percentage d) Percentage_threshold
  &&& Ok (truthy (USDMarketCap d))
  &&& gt (USDMarketCap d) USDMarketCap_threshold.

(** The condition of the comprehension, [>] being Python's. *)
Definition criteria (d : Datum) : Result bool := criteria_with py_gt d.

(** [[d.Symbol for d in data if criteria(d)]] *)
Fixpoint select (data : list Datum) : Result (list SecurityId) :=
  match data with
  | [] => Ok []
  | d :: rest =>
      rbind (criteria d) (fun keep =>
      rbind (select rest) (fun tl =>
      Ok (if keep then Symbol d :: tl else tl)))
  end.

(** The same comparisons without the two truth tests before them. *)
Definition criteria_unguarded (d : Datum) : Result bool :=
  py_gt (Percentage d) Percentage_threshold
  &&& py_gt (USDMarketCap d) USDMarketCap_threshold.

Section Script.

Variable host : Host.

(** [str(v)] as an f-string field. *)
Definition py_str (v : PyVal) : string :=
  match v with
  | PyNone => "None"
  | PyInt z => NilZero.string_of_int (Z.to_int z)
  | PyFloat f => float_str host f
  end.

Definition log_line (datum : Datum) : string :=
  String.concat ","
    [Symbol datum; py_str (Amount datum); py_str (AmountValue datum);
     py_str (Percentage datum); py_str (MinimumPrice datum);
     py_str (MaximumPrice datum); py_str (USDMarketCap datum)].

Definition History (u : Universe) (span : TimeSpan) : M (list (list Datum)) :=
  fun self => (Ok (history_source host self u span), self).

Definition Initialize : M unit :=
  (set_UniverseSettings_Resolution Daily ;;
   SetStartDate 2022 2 14 ;;
   SetEndDate 2022 2 18 ;;
   SetCash 100000 ;;
   universe <- AddUniverse SmartInsiderIntentionUniverse
                           Method_UniverseSelection ;;
   history <- History universe (mkTimeSpan 10 0 0 0) ;;
   (if negb (Nat.eqb (List.length history) 10)
    then raise (ValueError ("Unexpected history count "
                              ++ str_of_len history ++ "!"))
    else ret tt) ;;
   for_each history (fun dataForDate =>
     if Nat.ltb (List.length dataForDate) 1
     then raise (ValueError "Unexpected historical universe data!")
     else ret tt))%py.

Definition UniverseSelection (data : list Datum) : M (list SecurityId) :=
  (for_each data (fun datum => Log (log_line datum)) ;;
   lift (select data))%py.

Definition OnSecuritiesChanged (changes : SecurityChanges) : M unit :=
  Log (changes_ToString host changes).

End Script.

(** ** What the specification says of a qualifying point *)

Definition is_None (v : PyVal) : bool :=
  match v with
  | PyNone => true
  | _ => false
  end.

(** A point qualifies when [Percentage] is present and exceeds 0.005 and
    [USDMarketCap] is present and exceeds 100,000,000. *)
Definition qualifies (d : Datum) : bool :=
  negb (is_None (Percentage d))
  && num_gt (Percentage d) Percentage_threshold
  && negb (is_None (USDMarketCap d))
  && num_gt (USDMarketCap d) USDMarketCap_threshold.

Definition Qualifies (d : Datum) : Prop :=
  Percentage d <> PyNone
  /\ num_gt (Percentage d) Percentage_threshold = true
  /\ USDMarketCap d <> PyNone
  /\ num_gt (USDMarketCap d) USDMarketCap_threshold = true.

(** No other point of the collection carries the Symbol of [d]. *)
Definition sole_carrier (d : Datum) (data : list Datum) : Prop :=
  forall d', In d' data -> Symbol d' = Symbol d -> d' = d.

(** [UniverseSelection] with the logging loop taken out. *)
Definition UniverseSelection_without_log (data : list Datum)
  : M (list SecurityId) :=
  lift (select data).

(** ** What [Initialize] leaves behind and what its check decides *)

Definition registered_universe : Universe :=
  mkUniverse SmartInsiderIntentionUniverse Method_UniverseSelection.

Definition configured (self : QCAlgorithm) : QCAlgorithm :=
  mkAlgorithm Daily (mkDate 2022 2 14) (mkDate 2022 2 18) 100000
              (Universes self ++ [registered_universe]) (Logged self).

(** The dated entries the 10-day history request of [Initialize] returns. *)
Definition requested_history (host : Host) (self : QCAlgorithm)
  : list (list Datum) :=
  history_source host (configured self) registered_universe
                 (mkTimeSpan 10 0 0 0).

Definition history_count_error {A : Type} (history : list A) : PyExn :=
  ValueError ("Unexpected history count " ++ str_of_len history ++ "!").

Definition history_data_error : PyExn :=
  ValueError "Unexpected historical universe data!".

(** The outcome of the two checks on a history, the count first. *)
Definition validate {A : Type} (history : list (list A)) : Result unit :=
  if negb (Nat.eqb (List.length history) 10)
  then Raise (history_count_error history)
  else if existsb (fun entry => Nat.ltb (List.length entry) 1) history
       then Raise history_data_error
       else Ok tt.

(** [self] with [msgs] logged after what it had logged. *)
Definition with_logged (self : QCAlgorithm) (msgs : list string)
  : QCAlgorithm :=
  mkAlgorithm (UniverseSettings_Resolution self) (StartDate self)
              (EndDate self) (Cash self) (Universes self)
              (Logged self ++ msgs).

(** ** Sample inputs *)

Definition absent (sym : SecurityId) : Datum :=
  mkDatum sym PyNone PyNone PyNone PyNone PyNone PyNone.

(** A buyback intention of 1.0% of a company worth 200,000,000 USD;
    [0.01] is [5764607523034235 * 2^-59]. *)
Definition float_0_01 : spec_float := S754_finite false 5764607523034235 (-59).

Definition intention (sym : SecurityId) : Datum :=
  mkDatum sym (PyInt 1000) (PyInt 50000) (PyFloat float_0_01)
          (PyFloat float_0_01) PyNone (PyInt 200000000).

Definition sample_algorithm : QCAlgorithm :=
  mkAlgorithm Minute (mkDate 1998 1 1) (mkDate 2026 1 1) 100000 [] [].

Definition sample_host (history : list (list Datum)) : Host :=
  mkHost (fun _ => "0.01") (fun _ => "SecurityChanges: none")
         (fun _ _ _ => history).

Definition ten_days : list (list Datum) := repeat [intention "AAPL"] 10.

(** Two points that carry the same Symbol, the first with no field set. *)
Definition shared_Symbol : list Datum := [absent "AAPL"; intention "AAPL"].

(** Two points with Symbols of their own. *)
Definition two_companies : list Datum := [absent "MSFT"; intention "AAPL"].

(** A point with no [Percentage] and a market capitalisation above the
    threshold. *)
Definition no_Percentage : Datum :=
  mkDatum "IBM" (PyInt 1000) (PyInt 50000) PyNone PyNone PyNone
          (PyInt 200000000).

(** Points at the two thresholds. *)
Definition at_Percentage_threshold : Datum :=
  mkDatum "XOM" PyNone PyNone Percentage_threshold PyNone PyNone
          (PyInt 200000000).

Definition at_USDMarketCap_threshold : Datum :=
  mkDatum "GE" PyNone PyNone (PyFloat float_0_01) PyNone PyNone
          USDMarketCap_threshold.

(** A point just above both thresholds: [0.0050001] is
    [5764722815184696 * 2^-60]. *)
Definition float_0_0050001 : spec_float :=
  S754_finite false 5764722815184696 (-60).

Definition just_above_thresholds : Datum :=
  mkDatum "T" PyNone PyNone (PyFloat float_0_0050001) PyNone PyNone
          (PyInt 100000001).

(** ** Notions for the further properties *)

(** Two points agree on the three fields the comprehension reads. *)
Definition same_selection_fields (d d' : Datum) : Prop :=
  Symbol d = Symbol d'
  /\ Percentage d = Percentage d'
  /\ USDMarketCap d = USDMarketCap d'.

(** A number below zero: a negative [int], a negative finite [float] or
    minus infinity. *)
Definition is_negative (v : PyVal) : bool :=
  match v with
  | PyInt z => z <? 0
  | PyFloat (S754_infinity s) => s
  | PyFloat (S754_finite s _ _) => s
  | _ => false
  end.

Definition is_NaN (v : PyVal) : bool :=
  match v with
  | PyFloat S754_nan => true
  | _ => false
  end.

(** The number of occurrences of a character in a text. *)
Fixpoint count_char (c : ascii) (s : string) : nat :=
  match s with
  | EmptyString => 0%nat
  | String c' rest =>
      ((if Ascii.eqb c c' then 1 else 0) + count_char c rest)%nat
  end.

(** The point [intention sym] with other amounts and prices. *)
Definition intention_repriced (sym : SecurityId) : Datum :=
  mkDatum sym PyNone (PyInt 7) (PyFloat float_0_01) PyNone
          (PyFloat float_1e8) (PyInt 200000000).

(** A point whose two read fields are integers. *)
Definition whole_numbers (p c : Z) : Datum :=
  mkDatum "WHL" PyNone PyNone (PyInt p) PyNone PyNone (PyInt c).

(** A point with a negative [Percentage]. *)
Definition negative_Percentage : Datum :=
  mkDatum "NEG" PyNone PyNone (PyInt (-1)) PyNone PyNone (PyInt 200000000).

(** Everything of the algorithm object but its log is the same. *)
Definition same_settings (a b : QCAlgorithm) : Prop :=
  UniverseSettings_Resolution a = UniverseSettings_Resolution b
  /\ StartDate a = StartDate b
  /\ EndDate a = EndDate b
  /\ Cash a = Cash b
  /\ Universes a = Universes b.

(** * Properties *)

(** ** The literals *)

(** [lit_0_005] is a binary64 value (53 significant bits) and no binary64
    value is nearer to 5/1000: it is less than half a unit in the last place
    ([2^-61]) away. *)
Lemma lit_0_005_nearest :
  2 ^ 52 <= 5764607523034235 < 2 ^ 53
  /\ Z.abs (200 * 5764607523034235 - 2 ^ 60) * 2 < 200.
Proof. repeat split; vm_compute; easy. Qed.

(** The decimal literals as Rocq's binary64 reads them, rounding to nearest
    as Python does. *)
#[local] Set Warnings "-inexact-float".

Example lit_0_005_parsed : Prim2SF 0.005%float = lit_0_005.
Proof. reflexivity. Qed.

Example float_0_01_parsed : Prim2SF 0.01%float = float_0_01.
Proof. reflexivity. Qed.

Example float_1e8_parsed : Prim2SF 100000000%float = float_1e8.
Proof. reflexivity. Qed.

Example float_0_0050001_parsed : Prim2SF 0.0050001%float = float_0_0050001.
Proof. reflexivity. Qed.

(** [float_1e8] is the integer 100000000. *)
Lemma float_1e8_exact : float_compare_int float_1e8 100000000 = Some Eq.
Proof. reflexivity. Qed.

(** ** Truth tests and comparisons *)

Lemma py_gt_None (t : PyVal) : is_ok (py_gt PyNone t) = false.
Proof. reflexivity. Qed.

Lemma py_gt_number (v t : PyVal) :
  is_None v = false -> is_None t = false -> py_gt v t = Ok (num_gt v t).
Proof. destruct v, t; simpl; intros; congruence. Qed.

(** A value above a positive threshold is true. *)
Lemma above_Percentage_threshold_truthy (v : PyVal) :
  num_gt v Percentage_threshold = true -> truthy v = true.
Proof.
  destruct v as [|z|f]; simpl; intros H.
  - discriminate.
  - destruct (Z.eqb_spec z 0) as [->|]; [vm_compute in H; discriminate|].
    reflexivity.
  - destruct f as [s|s| |s m e]; try reflexivity.
    destruct s; vm_compute in H; discriminate.
Qed.

Lemma above_USDMarketCap_threshold_truthy (v : PyVal) :
  num_gt v USDMarketCap_threshold = true -> truthy v = true.
Proof.
  destruct v as [|z|f]; simpl; intros H.
  - discriminate.
  - destruct (Z.eqb_spec z 0) as [->|]; [vm_compute in H; discriminate|].
    reflexivity.
  - destruct f as [s|s| |s m e]; try reflexivity.
    destruct s; vm_compute in H; discriminate.
Qed.

(** A truth test followed by a comparison with a threshold that only true
    values exceed: a presence test and the comparison of the numbers. *)
Lemma guard_then_gt (v t : PyVal) :
  is_None t = false ->
  (num_gt v t = true -> truthy v = true) ->
  Ok (truthy v) &&& py_gt v t = Ok (negb (is_None v) && num_gt v t).
Proof.
  intros Ht Hv. unfold and_then, rbind.
  destruct (truthy v) eqn:Tv.
  - destruct v; [discriminate| |]; now rewrite py_gt_number.
  - destruct (num_gt v t) eqn:G; [specialize (Hv eq_refl); congruence|].
    now rewrite andb_false_r.
Qed.

(** The criteria never raise, and hold exactly of the qualifying points. *)
Lemma criteria_qualifies (d : Datum) : criteria d = Ok (qualifies d).
Proof.
  unfold criteria, criteria_with, qualifies.
  rewrite (guard_then_gt (Percentage d) Percentage_threshold eq_refl
             (above_Percentage_threshold_truthy _)).
  set (p := negb (is_None (Percentage d))
            && num_gt (Percentage d) Percentage_threshold).
  destruct p; simpl.
  - change (Ok true &&& Ok (truthy (USDMarketCap d))) 
      with (Ok (A:=bool) (truthy (USDMarketCap d))).
    apply (guard_then_gt (USDMarketCap d) USDMarketCap_threshold eq_refl
             (above_USDMarketCap_threshold_truthy _)).
  - reflexivity.
Qed.

Lemma qualifies_iff (d : Datum) : qualifies d = true <-> Qualifies d.
Proof.
  unfold qualifies, Qualifies. rewrite !andb_true_iff, !negb_true_iff.
  split.
  - intros [[[H1 H2] H3] H4]. repeat split; try assumption.
    + intros E; rewrite E in H1; discriminate.
    + intros E; rewrite E in H3; discriminate.
  - intros (H1 & H2 & H3 & H4). repeat split; try assumption.
    + destruct (Percentage d); [congruence|reflexivity|reflexivity].
    + destruct (USDMarketCap d); [congruence|reflexivity|reflexivity].
Qed.

(** The comprehension is the filter of the qualifying points, mapped to
    their Symbols. *)
Lemma select_filter (data : list Datum) :
  select data = Ok (map Symbol (filter qualifies data)).
Proof.
  induction data as [|d rest IH]; [reflexivity|].
  simpl. rewrite criteria_qualifies, IH. simpl.
  now destruct (qualifies d).
Qed.

Lemma count_occ_selected (data : list Datum) (sym : SecurityId) :
  count_occ string_dec (map Symbol (filter qualifies data)) sym
  = List.length
      (filter (fun d => qualifies d && String.eqb (Symbol d) sym) data).
Proof.
  induction data as [|d rest IH]; [reflexivity|].
  cbn [filter]. destruct (qualifies d); cbn [andb map]; [|exact IH].
  destruct (String.eqb_spec (Symbol d) sym) as [E|N].
  - rewrite count_occ_cons_eq by exact E. cbn [List.length]. f_equal. exact IH.
  - rewrite count_occ_cons_neq by exact N. exact IH.
Qed.

Lemma In_selected (data : list Datum) (sym : SecurityId) :
  In sym (map Symbol (filter qualifies data))
  <-> exists d, In d data /\ Symbol d = sym /\ Qualifies d.
Proof.
  rewrite in_map_iff. split.
  - intros (d & E & Hd). apply filter_In in Hd as [Hin Hq].
    exists d. split; [exact Hin|]. split; [exact E|]. now apply qualifies_iff.
  - intros (d & Hin & E & Hq). exists d. split; [exact E|].
    apply filter_In. split; [exact Hin|]. now apply qualifies_iff.
Qed.

(** The boundary values: a point at a threshold is left out, a point just
    above both is selected. *)
Example select_at_thresholds :
  select [at_Percentage_threshold; at_USDMarketCap_threshold;
          just_above_thresholds]
  = Ok ["T"].
Proof. reflexivity. Qed.

(** A float market capitalisation of 100000000.0 is not above 100000000. *)
Example float_1e8_not_above :
  num_gt (PyFloat float_1e8) USDMarketCap_threshold = false.
Proof. reflexivity. Qed.

(** ** The logging loop *)

Lemma with_logged_nil (self : QCAlgorithm) : with_logged self [] = self.
Proof. destruct self. unfold with_logged. simpl. now rewrite app_nil_r. Qed.

Lemma with_logged_app (self : QCAlgorithm) (xs ys : list string) :
  with_logged (with_logged self xs) ys = with_logged self (xs ++ ys).
Proof. unfold with_logged. simpl. now rewrite app_assoc. Qed.

Lemma Log_run (msg : string) (self : QCAlgorithm) :
  Log msg self = (Ok tt, with_logged self [msg]).
Proof. reflexivity. Qed.

Lemma for_each_Log {A : Type} (line : A -> string) (xs : list A) :
  forall self,
    for_each xs (fun x => Log (line x)) self
    = (Ok tt, with_logged self (map line xs)).
Proof.
  induction xs as [|x rest IH]; intros self; simpl.
  - unfold ret. now rewrite with_logged_nil.
  - unfold bind. rewrite Log_run, IH, with_logged_app. reflexivity.
Qed.

Lemma UniverseSelection_run (host : Host) (data : list Datum)
      (self : QCAlgorithm) :
  UniverseSelection host data self
  = (Ok (map Symbol (filter qualifies data)),
     with_logged self (map (log_line host) data)).
Proof.
  unfold UniverseSelection, bind.
  rewrite for_each_Log. unfold lift. now rewrite select_filter.
Qed.

(** ** The start-up check *)

Lemma check_entries_run {A : Type} (history : list (list A)) :
  forall self,
    for_each history (fun dataForDate =>
      if Nat.ltb (List.length dataForDate) 1
      then raise history_data_error
      else ret tt) self
    = (if existsb (fun entry => Nat.ltb (List.length entry) 1) history
       then Raise history_data_error
       else Ok tt, self).
Proof.
  induction history as [|entry rest IH]; intros self; [reflexivity|].
  simpl. unfold bind.
  destruct (Nat.ltb (List.length entry) 1); simpl; [reflexivity|].
  apply IH.
Qed.

Lemma Initialize_run (host : Host) (self : QCAlgorithm) :
  Initialize host self
  = (validate (requested_history host self), configured self).
Proof.
  unfold Initialize, bind, validate, requested_history. simpl.
  fold registered_universe. fold (configured self).
  set (history := history_source host (configured self) registered_universe
                                 (mkTimeSpan 10 0 0 0)).
  destruct (Nat.eqb (List.length history) 10); simpl.
  - apply (check_entries_run history).
  - reflexivity.
Qed.

Lemma existsb_empty_entry {A : Type} (history : list (list A)) :
  existsb (fun entry => Nat.ltb (List.length entry) 1) history = true
  <-> exists entry, In entry history /\ List.length entry = 0%nat.
Proof.
  rewrite existsb_exists. split; intros (entry & Hin & H); exists entry;
    (split; [exact Hin|]).
  - apply Nat.ltb_lt in H. lia.
  - apply Nat.ltb_lt. lia.
Qed.

Lemma history_errors_differ {A : Type} (history : list A) :
  history_count_error history <> history_data_error.
Proof. unfold history_count_error, history_data_error. simpl. discriminate. Qed.

(** ** The selection filter *)

(** C1, as stated, fails on a collection in which two points carry one
    Symbol: the first point of [shared_Symbol] has no [Percentage] and no
    [USDMarketCap], and its Symbol is in the returned list all the same,
    put there by the second point. *)
Lemma shared_Symbol_selected :
  In (absent "AAPL") shared_Symbol
  /\ fst (UniverseSelection (sample_host []) shared_Symbol sample_algorithm)
     = Ok ["AAPL"]
  /\ In (Symbol (absent "AAPL")) ["AAPL"]
  /\ Percentage (absent "AAPL") = PyNone
  /\ ~ (In (Symbol (absent "AAPL")) ["AAPL"] <-> Qualifies (absent "AAPL")).
Proof.
  split; [now left|]. split; [reflexivity|]. split; [now left|].
  split; [reflexivity|].
  intros [H _]. destruct (H (or_introl eq_refl)) as [Hp _]. now apply Hp.
Qed.

(** C1 (amended): [UniverseSelection] returns a list in which a Symbol
    appears if and only if some point of the input carrying that Symbol has
    [Percentage] non-null and above 0.005 and [USDMarketCap] non-null and
    above 100,000,000; so for a point whose Symbol no other point carries,
    its Symbol appears if and only if the point itself qualifies, and such a
    point with [Percentage] equal to 0.005 or [USDMarketCap] equal to
    100,000,000 (as an int or as a float) is left out. *)
Theorem UniverseSelection_selects_qualifying
        (host : Host) (data : list Datum) (self : QCAlgorithm) :
  exists out,
    fst (UniverseSelection host data self) = Ok out
    /\ (forall sym,
          In sym out
          <-> exists d, In d data /\ Symbol d = sym /\ Qualifies d)
    /\ (forall d, In d data -> sole_carrier d data ->
          (In (Symbol d) out <-> Qualifies d))
    /\ (forall d, In d data -> sole_carrier d data ->
          Percentage d = Percentage_threshold
          \/ USDMarketCap d = USDMarketCap_threshold
          \/ USDMarketCap d = PyFloat float_1e8 ->
          ~ In (Symbol d) out).
Proof.
  exists (map Symbol (filter qualifies data)).
  rewrite UniverseSelection_run.
  assert (Sole : forall d, In d data -> sole_carrier d data ->
            (In (Symbol d) (map Symbol (filter qualifies data))
             <-> Qualifies d)).
  { intros d Hin Hsole. rewrite In_selected. split.
    - intros (d' & Hin' & E & Hq). now rewrite <- (Hsole d' Hin' E).
    - intros Hq. now exists d. }
  split; [reflexivity|]. split; [apply In_selected|]. split; [exact Sole|].
  intros d Hin Hsole Hedge Hsel.
  apply (Sole d Hin Hsole) in Hsel. destruct Hsel as (_ & Hp & _ & Hc).
  destruct Hedge as [E|[E|E]].
  - rewrite E in Hp. vm_compute in Hp. discriminate.
  - rewrite E in Hc. vm_compute in Hc. discriminate.
  - rewrite E in Hc. vm_compute in Hc. discriminate.
Qed.

(** The amended C1 at [two_companies]: each point is the sole carrier of its
    Symbol, the second qualifies and the first does not. *)
Lemma UniverseSelection_selects_qualifying_witness :
  sole_carrier (intention "AAPL") two_companies
  /\ Qualifies (intention "AAPL")
  /\ exists out,
       fst (UniverseSelection (sample_host []) two_companies sample_algorithm)
       = Ok out
       /\ In "AAPL" out.
Proof.
  assert (Hsole : sole_carrier (intention "AAPL") two_companies).
  { intros d' [E|[E|[]]] Hs; subst d'; [discriminate Hs|reflexivity]. }
  assert (Hq : Qualifies (intention "AAPL")).
  { repeat split; discriminate. }
  split; [exact Hsole|]. split; [exact Hq|].
  destruct (UniverseSelection_selects_qualifying
              (sample_host []) two_companies sample_algorithm)
    as (out & Hout & _ & Hone & _).
  exists out. split; [exact Hout|].
  apply (Hone (intention "AAPL")); [right; now left|exact Hsole|exact Hq].
Defined.

(** The criteria never apply [>] to [None]: whatever [>] does on a [None]
    left operand, they evaluate to the same outcome. *)
Lemma criteria_never_compare_None
      (gt : PyVal -> PyVal -> Result bool) (d : Datum) :
  (forall v t, v <> PyNone -> gt v t = py_gt v t) ->
  criteria_with gt d = criteria d.
Proof.
  intros Hgt. unfold criteria, criteria_with.
  destruct (Percentage d) as [|z|f] eqn:Ep; [reflexivity| |].
  all: rewrite Hgt by discriminate.
  all: match goal with
       | |- ?x &&& _ &&& _ = _ => destruct x as [[|]|e]; try reflexivity
       end.
  all: destruct (USDMarketCap d) as [|z'|f'] eqn:Ec; try reflexivity.
  all: now rewrite Hgt by discriminate.
Qed.

(** Without the truth tests the comparison of an absent [Percentage]
    raises. *)
Lemma criteria_unguarded_raises (d : Datum) :
  Percentage d = PyNone -> is_ok (criteria_unguarded d) = false.
Proof. unfold criteria_unguarded. now intros ->. Qed.

(** C3: a point whose [Percentage] or [USDMarketCap] is [None] is left out,
    whatever its other field holds: the list returned for a collection with
    the point is the list returned without it. Comparing [None] with a
    threshold raises, and a raise aborts the method; the truth tests keep
    that comparison from being evaluated: the criteria of the point come
    out the same whatever [>] does on a [None], they return false, and the
    method returns. *)
Theorem UniverseSelection_null_excluded
        (host : Host) (before after : list Datum) (d : Datum)
        (self : QCAlgorithm) :
  Percentage d = PyNone \/ USDMarketCap d = PyNone ->
  (forall threshold, is_ok (py_gt PyNone threshold) = false)
  /\ (forall gt, (forall v t, v <> PyNone -> gt v t = py_gt v t) ->
                 criteria_with gt d = criteria d)
  /\ criteria d = Ok false
  /\ is_ok (fst (UniverseSelection host (before ++ d :: after) self)) = true
  /\ fst (UniverseSelection host (before ++ d :: after) self)
     = fst (UniverseSelection host (before ++ after) self).
Proof.
  intros Hnull.
  assert (Hq : qualifies d = false).
  { unfold qualifies. destruct Hnull as [E|E]; rewrite E; simpl.
    - reflexivity.
    - now rewrite andb_false_r. }
  split; [exact py_gt_None|].
  split; [intros gt; apply criteria_never_compare_None|].
  split; [now rewrite criteria_qualifies, Hq|].
  rewrite !UniverseSelection_run. split; [reflexivity|]. simpl.
  rewrite !filter_app. simpl. now rewrite Hq.
Qed.

(** C3 at a point with no [Percentage] and a market capitalisation of
    200,000,000. *)
Lemma UniverseSelection_null_excluded_witness :
  (Percentage no_Percentage = PyNone \/ USDMarketCap no_Percentage = PyNone)
  /\ criteria no_Percentage = Ok false
  /\ fst (UniverseSelection (sample_host [])
            ([intention "AAPL"] ++ no_Percentage :: [intention "MSFT"])
            sample_algorithm)
     = fst (UniverseSelection (sample_host [])
              ([intention "AAPL"] ++ [intention "MSFT"]) sample_algorithm).
Proof.
  assert (H : Percentage no_Percentage = PyNone
              \/ USDMarketCap no_Percentage = PyNone) by (left; reflexivity).
  split; [exact H|].
  destruct (UniverseSelection_null_excluded
              (sample_host []) [intention "AAPL"] [intention "MSFT"]
              no_Percentage sample_algorithm H) as (_ & _ & Hc & _ & Hsame).
  split; [exact Hc|exact Hsame].
Defined.

(** C4: the returned list is the Symbols of the qualifying points, in input
    order: the input filtered, then mapped to Symbols, so that a Symbol is
    returned once for each qualifying point that carries it. *)
Theorem UniverseSelection_subsequence
        (host : Host) (data : list Datum) (self : QCAlgorithm) :
  exists out,
    fst (UniverseSelection host data self) = Ok out
    /\ out = map Symbol (filter qualifies data)
    /\ forall sym,
         count_occ string_dec out sym
         = List.length
             (filter (fun d => qualifies d && String.eqb (Symbol d) sym)
                     data).
Proof.
  exists (map Symbol (filter qualifies data)).
  rewrite UniverseSelection_run. split; [reflexivity|].
  split; [reflexivity|]. intros sym. apply count_occ_selected.
Qed.

(** C4 at a collection in which "AAPL" qualifies twice around a point that
    does not qualify: it is returned twice. *)
Lemma UniverseSelection_subsequence_witness :
  exists out,
    fst (UniverseSelection (sample_host [])
           [intention "AAPL"; absent "MSFT"; intention "AAPL"]
           sample_algorithm)
    = Ok out
    /\ out = ["AAPL"; "AAPL"]
    /\ count_occ string_dec out "AAPL" = 2%nat.
Proof.
  destruct (UniverseSelection_subsequence (sample_host [])
              [intention "AAPL"; absent "MSFT"; intention "AAPL"]
              sample_algorithm) as (out & Hout & Hmap & Hcount).
  exists out. split; [exact Hout|]. split; [exact Hmap|].
  exact (Hcount "AAPL").
Defined.

(** C5: the returned list is a function of the input collection alone: two
    calls on equal collections return equal lists, whatever the state of the
    algorithm object and whatever the engine is; and a call leaves the
    object as it found it but for the log, which grows by one line for each
    point of the input, selected or not. *)
Theorem UniverseSelection_deterministic
        (host host' : Host) (data : list Datum) (self self' : QCAlgorithm) :
  fst (UniverseSelection host data self)
  = fst (UniverseSelection host' data self')
  /\ same_settings (snd (UniverseSelection host data self)) self
  /\ Logged (snd (UniverseSelection host data self))
     = (Logged self ++ map (log_line host) data)%list.
Proof.
  rewrite !UniverseSelection_run. split; [reflexivity|].
  split; [|reflexivity]. repeat split.
Qed.

(** C6: [UniverseSelection] returns what it returns with the logging loop
    taken out, and what it returns after [OnSecuritiesChanged] has logged;
    neither callback raises. *)
Theorem logging_is_a_frame
        (host : Host) (data : list Datum) (changes : SecurityChanges)
        (self : QCAlgorithm) :
  fst (UniverseSelection host data self)
  = fst (UniverseSelection_without_log data self)
  /\ fst (UniverseSelection host data
            (snd (OnSecuritiesChanged host changes self)))
     = fst (UniverseSelection host data self)
  /\ is_ok (fst (UniverseSelection host data self)) = true
  /\ is_ok (fst (OnSecuritiesChanged host changes self)) = true.
Proof.
  rewrite !UniverseSelection_run. unfold UniverseSelection_without_log, lift.
  simpl. rewrite select_filter. repeat split.
Qed.

(** ** The start-up routine *)

(** C7: [Initialize] leaves the algorithm object with daily universe
    resolution, start date 2022-02-14, end date 2022-02-18, cash 100000 and
    the SmartInsiderIntentionUniverse universe registered last, with
    [UniverseSelection] as its selector, and logs nothing; its history
    request, for that universe and 10 days, is answered on the object so
    configured, and the outcome of [Initialize] is the outcome of the checks
    on that answer. *)
Theorem Initialize_configures (host : Host) (self : QCAlgorithm) :
  let after := snd (Initialize host self) in
  UniverseSettings_Resolution after = Daily
  /\ StartDate after = mkDate 2022 2 14
  /\ EndDate after = mkDate 2022 2 18
  /\ Cash after = 100000
  /\ Universes after
     = (Universes self
        ++ [mkUniverse SmartInsiderIntentionUniverse
                       Method_UniverseSelection])%list
  /\ Logged after = Logged self
  /\ fst (Initialize host self)
     = validate
         (history_source host after
            (mkUniverse SmartInsiderIntentionUniverse Method_UniverseSelection)
            (mkTimeSpan 10 0 0 0)).
Proof.
  rewrite Initialize_run. simpl. repeat split.
Qed.

(** C2: [Initialize] raises if and only if the history request returns a
    number of dated entries other than 10 or a dated entry with no record;
    what it raises is a [ValueError] that names the count found, or one that
    says the historical universe data is unexpected; with 10 entries, none
    of them empty, it returns. *)
Theorem Initialize_raises_iff (host : Host) (self : QCAlgorithm) :
  let history := requested_history host self in
  ((exists e, fst (Initialize host self) = Raise e)
   <-> (List.length history <> 10%nat
        \/ exists entry, In entry history /\ List.length entry = 0%nat))
  /\ (forall e, fst (Initialize host self) = Raise e ->
        e = ValueError ("Unexpected history count "
                          ++ str_of_len history ++ "!")
        \/ e = ValueError "Unexpected historical universe data!")
  /\ (List.length history = 10%nat ->
      (forall entry, In entry history -> (1 <= List.length entry)%nat) ->
      fst (Initialize host self) = Ok tt).
Proof.
  intros history. rewrite Initialize_run. fold history. unfold validate. simpl.
  destruct (Nat.eqb_spec (List.length history) 10) as [Hten|Hcount]; simpl.
  - destruct (existsb (fun entry => Nat.ltb (List.length entry) 1) history)
      eqn:Hempty.
    + apply existsb_empty_entry in Hempty. split; [|split].
      * split; [intros _; now right|intros _; now eexists].
      * intros e [= <-]. now right.
      * intros _ Hall. destruct Hempty as (entry & Hin & Hlen).
        specialize (Hall entry Hin). lia.
    + split; [|split].
      * split; [intros [e He]; discriminate He|].
        intros [Hne|Hex]; [contradiction|].
        apply existsb_empty_entry in Hex. congruence.
      * intros e He. discriminate He.
      * reflexivity.
  - split; [|split].
    + split; [intros _; now left|intros _; now eexists].
    + intros e [= <-]. now left.
    + intros Hten. contradiction.
Qed.

(** C2 at a history of ten entries of one record each, on which
    [Initialize] returns, and at a history of three, on which it raises. *)
Lemma Initialize_raises_iff_witness :
  (List.length ten_days = 10%nat
   /\ (forall entry, In entry ten_days -> (1 <= List.length entry)%nat)
   /\ fst (Initialize (sample_host ten_days) sample_algorithm) = Ok tt)
  /\ exists e,
       fst (Initialize (sample_host (repeat [] 3)) sample_algorithm) = Raise e.
Proof.
  assert (Hall : forall entry, In entry ten_days ->
                               (1 <= List.length entry)%nat).
  { intros entry Hin. apply repeat_spec in Hin. subst entry. simpl. lia. }
  split.
  - split; [reflexivity|]. split; [exact Hall|].
    exact (proj2 (proj2 (Initialize_raises_iff (sample_host ten_days)
                           sample_algorithm)) eq_refl Hall).
  - apply (proj1 (Initialize_raises_iff (sample_host (repeat [] 3))
                    sample_algorithm)).
    left. simpl. discriminate.
Defined.

(** C10: the count is checked first. When the history request returns a
    number of entries other than 10, [Initialize] raises the error that
    names the count, and the outcome is the same for every history of that
    many entries, so it depends on no entry; the error on the historical
    universe data is raised only when there are exactly 10 entries. *)
Theorem Initialize_count_checked_first (host : Host) (self : QCAlgorithm) :
  let history := requested_history host self in
  (List.length history <> 10%nat ->
   fst (Initialize host self)
   = Raise (ValueError ("Unexpected history count "
                          ++ str_of_len history ++ "!"))
   /\ forall host' self',
        List.length (requested_history host' self') = List.length history ->
        fst (Initialize host' self') = fst (Initialize host self))
  /\ (fst (Initialize host self)
      = Raise (ValueError "Unexpected historical universe data!") ->
      List.length history = 10%nat).
Proof.
  intros history. rewrite Initialize_run. fold history. split.
  - intros Hcount.
    assert (Hraise : forall h : list (list Datum),
               List.length h = List.length history ->
               validate h = Raise (history_count_error history)).
    { intros h Hlen. unfold validate, history_count_error, str_of_len.
      rewrite Hlen.
      now destruct (Nat.eqb_spec (List.length history) 10). }
    simpl. split; [now apply Hraise|].
    intros host' self' Hlen. rewrite Initialize_run. simpl.
    rewrite (Hraise history eq_refl). now apply Hraise.
  - simpl. unfold validate.
    destruct (Nat.eqb_spec (List.length history) 10) as [Hten|Hcount]; simpl.
    + intros _. exact Hten.
    + intros H. exfalso. apply (history_errors_differ history).
      unfold history_data_error. congruence.
Qed.

(** C10 at a history of three empty entries: the error raised names the
    count, as it does on three entries of one record each. *)
Lemma Initialize_count_checked_first_witness :
  List.length (repeat (@nil Datum) 3) <> 10%nat
  /\ fst (Initialize (sample_host (repeat [] 3)) sample_algorithm)
     = Raise (ValueError "Unexpected history count 3!")
  /\ fst (Initialize (sample_host (repeat [intention "AAPL"] 3))
            sample_algorithm)
     = fst (Initialize (sample_host (repeat [] 3)) sample_algorithm).
Proof.
  assert (H : List.length (repeat (@nil Datum) 3) <> 10%nat)
    by (simpl; discriminate).
  split; [exact H|].
  destruct (proj1 (Initialize_count_checked_first
                     (sample_host (repeat [] 3)) sample_algorithm) H)
    as [Hraise Hsame].
  split; [exact Hraise|].
  apply (Hsame (sample_host (repeat [intention "AAPL"] 3)) sample_algorithm).
  reflexivity.
Defined.

(** ** The callbacks *)

(** C8: [OnSecuritiesChanged] passes the string representation of the
    changes record to the log, once, and returns [None]; the algorithm
    object is otherwise as it was, and the record, which the method only
    reads, is as it was. *)
Theorem OnSecuritiesChanged_logs
        (host : Host) (changes : SecurityChanges) (self : QCAlgorithm) :
  fst (OnSecuritiesChanged host changes self) = Ok tt
  /\ Logged (snd (OnSecuritiesChanged host changes self))
     = (Logged self ++ [changes_ToString host changes])%list
  /\ same_settings (snd (OnSecuritiesChanged host changes self)) self.
Proof.
  unfold OnSecuritiesChanged. rewrite Log_run. cbn [fst snd].
  split; [reflexivity|]. split; [reflexivity|].
  unfold same_settings, with_logged. cbn. repeat split.
Qed.

(** C9: on an empty collection [UniverseSelection] returns the empty list
    and leaves the algorithm object, its log included, as it was. *)
Theorem UniverseSelection_empty (host : Host) (self : QCAlgorithm) :
  UniverseSelection host [] self = (Ok [], self).
Proof.
  unfold UniverseSelection, bind. cbn [for_each select].
  unfold ret, lift. reflexivity.
Qed.

(** * Further properties of the script *)

(** ** How the selection composes *)

Lemma filter_Permutation {A : Type} (keep : A -> bool) (xs ys : list A) :
  Permutation xs ys -> Permutation (filter keep xs) (filter keep ys).
Proof.
  intros Hperm. induction Hperm as [|a xs ys _ IH|a b xs|xs ys zs _ IH1 _ IH2].
  - apply perm_nil.
  - cbn [filter]. case (keep a); [apply perm_skip|]; exact IH.
  - cbn [filter]. case (keep a); case (keep b);
      solve [apply perm_swap | apply Permutation_refl].
  - exact (perm_trans IH1 IH2).
Qed.

Lemma qualifies_same_fields (d d' : Datum) :
  same_selection_fields d d' -> qualifies d = qualifies d'.
Proof. intros (_ & Hp & Hc). unfold qualifies. now rewrite Hp, Hc. Qed.

Lemma selected_same_fields (data data' : list Datum) :
  Forall2 same_selection_fields data data' ->
  map Symbol (filter qualifies data) = map Symbol (filter qualifies data').
Proof.
  induction 1 as [|d d' data data' Hd _ IH]; [reflexivity|].
  simpl. rewrite <- (qualifies_same_fields d d' Hd).
  destruct Hd as (Hs & _). destruct (qualifies d); simpl; [|exact IH].
  now rewrite Hs, IH.
Qed.

(** X1: a call on two collections, one after the other, is a call on the
    first followed by a call on the second: the returned list is the two
    lists appended and the log is what the two calls log, in that order. *)
Theorem UniverseSelection_app
        (host : Host) (first second : list Datum) (self : QCAlgorithm) :
  UniverseSelection host (first ++ second) self
  = (xs <- UniverseSelection host first ;;
     ys <- UniverseSelection host second ;;
     ret (xs ++ ys)%list)%py self.
Proof.
  unfold bind. rewrite !UniverseSelection_run. unfold ret.
  rewrite filter_app, !map_app, with_logged_app. reflexivity.
Qed.

(** X2: the returned list depends on the [Symbol], [Percentage] and
    [USDMarketCap] of the points and on nothing else of them: two
    collections that agree point by point on these three fields give the
    same list, whatever [Amount], [AmountValue], [MinimumPrice] and
    [MaximumPrice] hold. *)
Theorem UniverseSelection_reads_three_fields
        (host : Host) (data data' : list Datum) (self : QCAlgorithm) :
  Forall2 same_selection_fields data data' ->
  fst (UniverseSelection host data self)
  = fst (UniverseSelection host data' self).
Proof.
  intros H. rewrite !UniverseSelection_run. cbn [fst].
  now rewrite (selected_same_fields data data' H).
Qed.

(** X2 at two points that differ in amounts and prices only. *)
Lemma UniverseSelection_reads_three_fields_witness :
  Forall2 same_selection_fields
          [intention "AAPL"; absent "MSFT"]
          [intention_repriced "AAPL"; absent "MSFT"]
  /\ fst (UniverseSelection (sample_host [])
            [intention "AAPL"; absent "MSFT"] sample_algorithm)
     = fst (UniverseSelection (sample_host [])
              [intention_repriced "AAPL"; absent "MSFT"] sample_algorithm).
Proof.
  assert (H : Forall2 same_selection_fields
                [intention "AAPL"; absent "MSFT"]
                [intention_repriced "AAPL"; absent "MSFT"]).
  { repeat constructor. }
  split; [exact H|].
  exact (UniverseSelection_reads_three_fields
           (sample_host []) _ _ sample_algorithm H).
Defined.

(** X3: the order of the input decides the order of the output and nothing
    more: on a rearrangement of the collection the method returns a
    rearrangement of the list. *)
Theorem UniverseSelection_Permutation
        (host : Host) (data data' : list Datum) (self : QCAlgorithm) :
  Permutation data data' ->
  exists out out',
    fst (UniverseSelection host data self) = Ok out
    /\ fst (UniverseSelection host data' self) = Ok out'
    /\ Permutation out out'.
Proof.
  intros H. rewrite !UniverseSelection_run.
  exists (map Symbol (filter qualifies data)),
         (map Symbol (filter qualifies data')).
  split; [reflexivity|]. split; [reflexivity|].
  apply Permutation_map, filter_Permutation, H.
Qed.

(** X3 at a collection of three points and its reverse. *)
Lemma UniverseSelection_Permutation_witness :
  Permutation [intention "AAPL"; absent "MSFT"; intention "IBM"]
              [intention "IBM"; absent "MSFT"; intention "AAPL"]
  /\ exists out out',
       fst (UniverseSelection (sample_host [])
              [intention "AAPL"; absent "MSFT"; intention "IBM"]
              sample_algorithm) = Ok out
       /\ fst (UniverseSelection (sample_host [])
                 [intention "IBM"; absent "MSFT"; intention "AAPL"]
                 sample_algorithm) = Ok out'
       /\ Permutation out out'.
Proof.
  assert (H : Permutation [intention "AAPL"; absent "MSFT"; intention "IBM"]
                          [intention "IBM"; absent "MSFT"; intention "AAPL"]).
  { apply (Permutation_rev [intention "AAPL"; absent "MSFT"; intention "IBM"]). }
  split; [exact H|].
  exact (UniverseSelection_Permutation (sample_host []) _ _
                                       sample_algorithm H).
Defined.

(** X4: the method returns no more Symbols than it is given points, and
    each Symbol it returns is carried by a point of the input; when every
    point qualifies it returns the Symbols of all of them, and when none
    does it returns the empty list. *)
Theorem UniverseSelection_within_input
        (host : Host) (data : list Datum) (self : QCAlgorithm) :
  exists out,
    fst (UniverseSelection host data self) = Ok out
    /\ (List.length out <= List.length data)%nat
    /\ incl out (map Symbol data)
    /\ ((forall d, In d data -> Qualifies d) -> out = map Symbol data)
    /\ ((forall d, In d data -> ~ Qualifies d) -> out = []).
Proof.
  exists (map Symbol (filter qualifies data)).
  rewrite UniverseSelection_run. split; [reflexivity|].
  split; [rewrite length_map; apply filter_length_le|].
  split.
  { intros sym Hin. apply in_map_iff in Hin as (d & Hs & Hd).
    apply filter_In in Hd as [Hd _]. apply in_map_iff. now exists d. }
  split; intros Hall.
  - f_equal. apply forallb_filter_id. apply forallb_forall.
    intros d Hd. now apply qualifies_iff, Hall.
  - replace (filter qualifies data) with (@nil Datum); [reflexivity|].
    symmetry. induction data as [|d rest IH]; [reflexivity|]. simpl.
    destruct (qualifies d) eqn:Hq.
    + exfalso. apply (Hall d (or_introl eq_refl)). now apply qualifies_iff.
    + apply IH. intros d' Hd'. apply Hall. now right.
Qed.

(** X4 at two qualifying points, both returned. *)
Lemma UniverseSelection_within_input_witness :
  (forall d, In d [intention "AAPL"; intention "IBM"] -> Qualifies d)
  /\ exists out,
       fst (UniverseSelection (sample_host [])
              [intention "AAPL"; intention "IBM"] sample_algorithm) = Ok out
       /\ out = ["AAPL"; "IBM"].
Proof.
  assert (H : forall d, In d [intention "AAPL"; intention "IBM"] ->
                        Qualifies d).
  { intros d [<-|[<-|[]]]; repeat split; discriminate. }
  split; [exact H|].
  destruct (UniverseSelection_within_input (sample_host [])
              [intention "AAPL"; intention "IBM"] sample_algorithm)
    as (out & Hout & _ & _ & Hall & _).
  exists out. split; [exact Hout|]. exact (Hall H).
Defined.

(** ** Values the criteria reject *)

Lemma pow2_pos (e : Z) : 0 <= e -> 0 < 2 ^ e.
Proof. intros He. apply Z.pow_pos_nonneg; lia. Qed.

Lemma negative_not_above_int (v : PyVal) (c : Z) :
  0 <= c -> is_negative v = true -> num_gt v (PyInt c) = false.
Proof.
  intros Hc Hneg. destruct v as [|z|f]; [discriminate| |].
  - unfold num_gt, num_compare. simpl in Hneg. apply Z.ltb_lt in Hneg.
    destruct (Z.compare_spec z c); try reflexivity. lia.
  - destruct f as [s|s| |s m e]; try discriminate; simpl in Hneg; subst s.
    + reflexivity.
    + unfold num_gt, num_compare, float_compare_int.
      destruct (Z.leb_spec 0 e) as [He|He].
      * pose proof (pow2_pos e He).
        destruct (Z.compare_spec (Z.neg m * 2 ^ e) c); try reflexivity. nia.
      * assert (0 < 2 ^ (- e)) by (apply pow2_pos; lia).
        destruct (Z.compare_spec (Z.neg m) (c * 2 ^ (- e)));
          try reflexivity. nia.
Qed.

Lemma negative_not_above_Percentage_threshold (v : PyVal) :
  is_negative v = true -> num_gt v Percentage_threshold = false.
Proof.
  intros Hneg. destruct v as [|z|f]; [discriminate| |].
  - simpl in Hneg. apply Z.ltb_lt in Hneg.
    unfold num_gt, Percentage_threshold, lit_0_005, num_compare,
      float_compare_int, option_map.
    change (0 <=? -60) with false. cbv iota.
    destruct (Z.compare_spec 5764607523034235 (z * 2 ^ (- -60)));
      try reflexivity.
    assert (0 < 2 ^ (- -60)) by (apply pow2_pos; lia). nia.
  - destruct f as [s|s| |s m e]; try discriminate; simpl in Hneg; subst s;
      reflexivity.
Qed.

Lemma NaN_not_above (v t : PyVal) : is_NaN v = true -> num_gt v t = false.
Proof.
  destruct v as [|z|f]; try discriminate.
  destruct f; try discriminate. intros _. now destruct t as [|c|[]].
Qed.

Lemma falsy_not_above_thresholds (v : PyVal) :
  truthy v = false ->
  num_gt v Percentage_threshold = false
  /\ num_gt v USDMarketCap_threshold = false.
Proof.
  intros Hv. split.
  - destruct (num_gt v Percentage_threshold) eqn:G; [|reflexivity].
    apply above_Percentage_threshold_truthy in G. congruence.
  - destruct (num_gt v USDMarketCap_threshold) eqn:G; [|reflexivity].
    apply above_USDMarketCap_threshold_truthy in G. congruence.
Qed.

Lemma not_qualifying_dropped
      (host : Host) (before after : list Datum) (d : Datum)
      (self : QCAlgorithm) :
  qualifies d = false ->
  fst (UniverseSelection host (before ++ d :: after) self)
  = fst (UniverseSelection host (before ++ after) self).
Proof.
  intros Hq. rewrite !UniverseSelection_run. cbn [fst].
  rewrite !filter_app. simpl. now rewrite Hq.
Qed.

(** X5: a point is left out when its [Percentage] or its [USDMarketCap] is
    a zero ([0], [0.0] or [-0.0]), a NaN, or below zero (minus infinity
    too): the list returned for a collection with the point is the list
    returned without it, and nothing is raised. *)
Theorem UniverseSelection_excludes_zero_NaN_negative
        (host : Host) (before after : list Datum) (d : Datum)
        (self : QCAlgorithm) :
  truthy (Percentage d) = false \/ truthy (USDMarketCap d) = false
  \/ is_NaN (Percentage d) = true \/ is_NaN (USDMarketCap d) = true
  \/ is_negative (Percentage d) = true
  \/ is_negative (USDMarketCap d) = true ->
  criteria d = Ok false
  /\ fst (UniverseSelection host (before ++ d :: after) self)
     = fst (UniverseSelection host (before ++ after) self).
Proof.
  intros H.
  assert (Hq : qualifies d = false).
  { unfold qualifies.
    destruct H as [H|[H|[H|[H|[H|H]]]]].
    - apply falsy_not_above_thresholds in H as [-> _].
      now rewrite andb_false_r.
    - apply falsy_not_above_thresholds in H as [_ ->].
      now rewrite andb_false_r.
    - rewrite (NaN_not_above _ _ H). now rewrite andb_false_r.
    - rewrite (NaN_not_above _ _ H). now rewrite andb_false_r.
    - rewrite (negative_not_above_Percentage_threshold _ H).
      now rewrite andb_false_r.
    - unfold USDMarketCap_threshold.
      rewrite (negative_not_above_int _ 100000000 ltac:(lia) H).
      now rewrite andb_false_r. }
  split; [now rewrite criteria_qualifies, Hq|].
  now apply not_qualifying_dropped.
Qed.

(** X5 at a point with [Percentage] -1 and a large market
    capitalisation. *)
Lemma UniverseSelection_excludes_zero_NaN_negative_witness :
  is_negative (Percentage negative_Percentage) = true
  /\ fst (UniverseSelection (sample_host [])
            ([intention "AAPL"] ++ negative_Percentage :: [])
            sample_algorithm)
     = fst (UniverseSelection (sample_host [])
              ([intention "AAPL"] ++ []) sample_algorithm).
Proof.
  split; [reflexivity|].
  apply (UniverseSelection_excludes_zero_NaN_negative
           (sample_host []) [intention "AAPL"] [] negative_Percentage
           sample_algorithm).
  right; right; right; right; left. reflexivity.
Defined.

(** X6: when [Percentage] and [USDMarketCap] are integers, the criteria
    hold exactly when [Percentage] is at least 1 and [USDMarketCap] at
    least 100,000,001: the float threshold 0.005 lies strictly between the
    integers 0 and 1. *)
Theorem criteria_on_integers (d : Datum) (p c : Z) :
  Percentage d = PyInt p -> USDMarketCap d = PyInt c ->
  criteria d = Ok ((1 <=? p) && (100000001 <=? c)).
Proof.
  intros Hp Hc. rewrite criteria_qualifies. f_equal.
  unfold qualifies. rewrite Hp, Hc. cbn [is_None negb andb].
  f_equal.
  - unfold num_gt, Percentage_threshold, lit_0_005, num_compare,
      float_compare_int, option_map.
    change (0 <=? -60) with false. cbv iota.
    change (2 ^ (- -60)) with 1152921504606846976.
    destruct (Z.compare_spec 5764607523034235 (p * 1152921504606846976));
      destruct (Z.leb_spec 1 p); simpl; try reflexivity; lia.
  - unfold num_gt, USDMarketCap_threshold, num_compare.
    destruct (Z.compare_spec c 100000000);
      destruct (Z.leb_spec 100000001 c); try reflexivity; lia.
Qed.

(** X6 at the integers 1 and 100,000,001, the least that qualify. *)
Lemma criteria_on_integers_witness :
  Percentage (whole_numbers 1 100000001) = PyInt 1
  /\ USDMarketCap (whole_numbers 1 100000001) = PyInt 100000001
  /\ criteria (whole_numbers 1 100000001) = Ok true.
Proof.
  split; [reflexivity|]. split; [reflexivity|].
  exact (criteria_on_integers (whole_numbers 1 100000001) 1 100000001
                              eq_refl eq_refl).
Defined.

(** X7: on a point whose [Percentage] and [USDMarketCap] are both numbers
    the two truth tests change nothing: the criteria are the two
    comparisons alone, a zero being rejected by its comparison. *)
Theorem truth_tests_matter_for_None_only (d : Datum) :
  Percentage d <> PyNone -> USDMarketCap d <> PyNone ->
  criteria d = criteria_unguarded d.
Proof.
  intros Hp Hc. rewrite criteria_qualifies.
  unfold criteria_unguarded, qualifies, and_then, rbind.
  destruct (Percentage d) as [|p|p]; [contradiction| |];
    destruct (USDMarketCap d) as [|c|c]; try contradiction;
    cbn [py_gt is_None negb andb];
    match goal with
    | |- context [num_gt ?a Percentage_threshold] =>
        destruct (num_gt a Percentage_threshold)
    end; reflexivity.
Qed.

(** X7 at a point with [Percentage] 0: rejected with and without the truth
    tests. *)
Lemma truth_tests_matter_for_None_only_witness :
  Percentage (whole_numbers 0 200000000) <> PyNone
  /\ USDMarketCap (whole_numbers 0 200000000) <> PyNone
  /\ criteria (whole_numbers 0 200000000)
     = criteria_unguarded (whole_numbers 0 200000000)
  /\ criteria_unguarded (whole_numbers 0 200000000) = Ok false.
Proof.
  assert (Hp : Percentage (whole_numbers 0 200000000) <> PyNone)
    by discriminate.
  assert (Hc : USDMarketCap (whole_numbers 0 200000000) <> PyNone)
    by discriminate.
  split; [exact Hp|]. split; [exact Hc|].
  split; [|reflexivity].
  exact (truth_tests_matter_for_None_only (whole_numbers 0 200000000) Hp Hc).
Defined.

(** ** What the start-up check reads and what its error tells *)

Lemma validate_lengths {A B : Type}
      (history : list (list A)) (history' : list (list B)) :
  map (@List.length A) history = map (@List.length B) history' ->
  validate history = validate history'.
Proof.
  intros H.
  assert (Hlen : List.length history = List.length history').
  { rewrite <- (length_map (@List.length A) history), H.
    apply length_map. }
  assert (Hex : existsb (fun entry => Nat.ltb (List.length entry) 1) history
                = existsb (fun entry => Nat.ltb (List.length entry) 1)
                          history').
  { clear Hlen. revert history' H.
    induction history as [|entry rest IH]; intros [|entry' rest'] H;
      try discriminate; [reflexivity|].
    simpl in H. injection H as He Hr. simpl. now rewrite He, (IH rest' Hr). }
  unfold validate, history_count_error, str_of_len.
  now rewrite Hlen, Hex.
Qed.

Lemma string_app_inv_head (p a b : string) : p ++ a = p ++ b -> a = b.
Proof.
  induction p as [|c p IH]; simpl; intros H; [exact H|].
  injection H as H. now apply IH.
Qed.

Lemma string_app_inv_tail (a b : string) (c : ascii) :
  a ++ String c "" = b ++ String c "" -> a = b.
Proof.
  revert b. induction a as [|x a IH]; intros [|y b] H; simpl in H.
  - reflexivity.
  - injection H as _ H. now destruct b.
  - injection H as _ H. now destruct a.
  - injection H as -> H. f_equal. now apply IH.
Qed.

Lemma str_of_len_inj {A B : Type} (xs : list A) (ys : list B) :
  str_of_len xs = str_of_len ys -> List.length xs = List.length ys.
Proof.
  unfold str_of_len. intros H.
  apply Unsigned.to_uint_inj.
  assert (Some (Nat.to_uint (List.length xs))
          = Some (Nat.to_uint (List.length ys))) as [= E]; [|exact E].
  rewrite <- !NilEmpty.usu. now rewrite H.
Qed.

(** X8: the outcome of [Initialize] depends on the history through the
    number of records of each dated entry, in order, and on nothing else:
    it reads no record. *)
Theorem Initialize_reads_lengths_only
        (host host' : Host) (self self' : QCAlgorithm) :
  map (@List.length Datum) (requested_history host self)
  = map (@List.length Datum) (requested_history host' self') ->
  fst (Initialize host self) = fst (Initialize host' self').
Proof.
  intros H. rewrite !Initialize_run. cbn [fst]. now apply validate_lengths.
Qed.

(** X8 at ten entries of one record, with two different records. *)
Lemma Initialize_reads_lengths_only_witness :
  map (@List.length Datum)
      (requested_history (sample_host ten_days) sample_algorithm)
  = map (@List.length Datum)
        (requested_history (sample_host (repeat [absent "MSFT"] 10))
                           sample_algorithm)
  /\ fst (Initialize (sample_host ten_days) sample_algorithm)
     = fst (Initialize (sample_host (repeat [absent "MSFT"] 10))
                       sample_algorithm).
Proof.
  assert (H : map (@List.length Datum)
                  (requested_history (sample_host ten_days) sample_algorithm)
              = map (@List.length Datum)
                    (requested_history
                       (sample_host (repeat [absent "MSFT"] 10))
                       sample_algorithm)) by reflexivity.
  split; [exact H|].
  exact (Initialize_reads_lengths_only _ _ _ _ H).
Defined.

(** X9: the error raised on a wrong count tells the count: two runs of
    [Initialize] that both find a number of dated entries other than 10
    raise the same error only if they found the same number. *)
Theorem Initialize_count_error_tells_count
        (host host' : Host) (self self' : QCAlgorithm) :
  List.length (requested_history host self) <> 10%nat ->
  List.length (requested_history host' self') <> 10%nat ->
  fst (Initialize host self) = fst (Initialize host' self') ->
  List.length (requested_history host self)
  = List.length (requested_history host' self').
Proof.
  intros Hn Hn'. rewrite !Initialize_run. cbn [fst]. unfold validate.
  destruct (Nat.eqb_spec (List.length (requested_history host self)) 10);
    [contradiction|].
  destruct (Nat.eqb_spec (List.length (requested_history host' self')) 10);
    [contradiction|].
  cbn [negb]. unfold history_count_error. intros H.
  assert (E : "Unexpected history count "
              ++ str_of_len (requested_history host self) ++ "!"
              = "Unexpected history count "
                ++ str_of_len (requested_history host' self') ++ "!")
    by congruence.
  clear H. apply string_app_inv_head, string_app_inv_tail in E.
  now apply str_of_len_inj.
Qed.

(** X9 at two histories of three entries. *)
Lemma Initialize_count_error_tells_count_witness :
  List.length
    (requested_history (sample_host (repeat [] 3)) sample_algorithm)
  <> 10%nat
  /\ List.length
       (requested_history (sample_host (repeat [intention "AAPL"] 3))
                          sample_algorithm)
     = 3%nat.
Proof.
  assert (H : List.length
                (requested_history (sample_host (repeat [] 3))
                                   sample_algorithm) <> 10%nat)
    by (simpl; discriminate).
  assert (H' : List.length
                 (requested_history
                    (sample_host (repeat [intention "AAPL"] 3))
                    sample_algorithm) <> 10%nat)
    by (simpl; discriminate).
  split; [exact H|].
  symmetry.
  exact (Initialize_count_error_tells_count
           (sample_host (repeat [] 3))
           (sample_host (repeat [intention "AAPL"] 3))
           sample_algorithm sample_algorithm H H' eq_refl).
Defined.

(** ** The shape of the logged lines *)

Lemma count_char_app (c : ascii) (a b : string) :
  count_char c (a ++ b) = (count_char c a + count_char c b)%nat.
Proof.
  induction a as [|x a IH]; [reflexivity|]. simpl. rewrite IH. lia.
Qed.

Lemma no_comma_in_digits (u : Decimal.uint) :
  count_char "," (NilEmpty.string_of_uint u) = 0%nat.
Proof. induction u; simpl; [reflexivity|assumption..]. Qed.

Lemma no_comma_in_int (z : Z) :
  count_char "," (NilZero.string_of_int (Z.to_int z)) = 0%nat.
Proof.
  assert (H : forall u, count_char "," (NilZero.string_of_uint u) = 0%nat).
  { intros u. destruct u; try reflexivity; apply (no_comma_in_digits _). }
  destruct (Z.to_int z); simpl; apply H.
Qed.

Lemma no_comma_in_py_str (host : Host) (v : PyVal) :
  (forall f, count_char "," (float_str host f) = 0%nat) ->
  count_char "," (py_str host v) = 0%nat.
Proof.
  intros Hf. destruct v as [|z|f]; simpl.
  - reflexivity.
  - apply no_comma_in_int.
  - apply Hf.
Qed.

Lemma log_line_commas (host : Host) (d : Datum) :
  (forall f, count_char "," (float_str host f) = 0%nat) ->
  count_char "," (Symbol d) = 0%nat ->
  count_char "," (log_line host d) = 6%nat.
Proof.
  intros Hf Hs. unfold log_line. cbn [String.concat].
  rewrite !count_char_app, Hs, !(no_comma_in_py_str host _ Hf).
  reflexivity.
Qed.

(** X10: when neither the text of a Symbol nor the text of a float holds a
    comma, [UniverseSelection] adds to the log one line for each point of
    the input and each of these lines holds exactly six commas: seven
    fields, none of them split, an absent field being the text "None". *)
Theorem UniverseSelection_logs_seven_fields
        (host : Host) (data : list Datum) (self : QCAlgorithm) :
  (forall f, count_char "," (float_str host f) = 0%nat) ->
  (forall d, In d data -> count_char "," (Symbol d) = 0%nat) ->
  exists lines,
    Logged (snd (UniverseSelection host data self))
    = (Logged self ++ lines)%list
    /\ List.length lines = List.length data
    /\ Forall (fun line => count_char "," line = 6%nat) lines.
Proof.
  intros Hf Hs. exists (map (log_line host) data).
  rewrite UniverseSelection_run. split; [reflexivity|].
  split; [apply length_map|].
  apply Forall_forall. intros line Hin.
  apply in_map_iff in Hin as (d & <- & Hd).
  apply log_line_commas; [exact Hf|now apply Hs].
Qed.

(** X10 at a point with no field set and a point with fields set. *)
Lemma UniverseSelection_logs_seven_fields_witness :
  (forall f, count_char "," (float_str (sample_host []) f) = 0%nat)
  /\ (forall d, In d two_companies -> count_char "," (Symbol d) = 0%nat)
  /\ exists lines,
       Logged (snd (UniverseSelection (sample_host []) two_companies
                                      sample_algorithm))
       = (Logged sample_algorithm ++ lines)%list
       /\ List.length lines = 2%nat
       /\ Forall (fun line => count_char "," line = 6%nat) lines.
Proof.
  assert (Hf : forall f,
             count_char "," (float_str (sample_host []) f) = 0%nat)
    by reflexivity.
  assert (Hs : forall d, In d two_companies ->
                         count_char "," (Symbol d) = 0%nat).
  { intros d [<-|[<-|[]]]; reflexivity. }
  split; [exact Hf|]. split; [exact Hs|].
  exact (UniverseSelection_logs_seven_fields (sample_host []) two_companies
                                             sample_algorithm Hf Hs).
Defined.
